(** * disk.py: terminal speed of a uniform disk rolling down an incline

    Shallow embedding of [final_disk_speed] (src/disk.py) and the
    properties stated about it.

    The Python function works on 64-bit floats, while the properties
    stated about it speak of "six real inputs".  The function is
    therefore embedded twice, line for line the same.

    Real-number reading ([Np], [g], [energy_available],
    [final_disk_speed]).  The arithmetic is read over the real numbers
    [R]: [+], [-], [*], [/] are the exact field operations, [np.radians]
    is multiplication by [PI / 180], [np.cos] is [cos].  Rounding,
    overflow, infinities and NaN inputs are outside this reading.  The one
    place where the float code can leave the reals on real inputs is
    [np.sqrt] of a negative radicand, which yields NaN: it is modelled by
    [Np.sqrt] returning [None], so that the result of [final_disk_speed]
    is an [option R] and "a defined real is returned" is a statement that
    can be proved.  This reading carries the properties that rounding
    leaves intact: equalities between two calls, comparisons that are not
    strict, and enclosures much wider than a rounding error.

    Binary64 reading (module [B64]).  The arithmetic is IEEE 754 binary64
    with round-to-nearest, as Python and numpy compute it: the literals
    are rounded to the nearest binary64 number, every operation of line 38
    rounds, and the guard of line 41 compares the rounded energy.
    [np.cos] belongs to the platform's math library and not to the
    repository, so it is a parameter of this reading; the evaluations
    below use it only at an incline of 0, where every IEC 60559 cosine
    returns 1.  This reading decides the properties that turn on which
    branch the code takes or on whether two results differ. *)

From Stdlib Require Import Floats.
From Stdlib Require Import Reals.Reals Reals.RIneq.
From Stdlib Require Import Lra Psatz.

Set Warnings "-inexact-float".

Open Scope R_scope.

(** ** The numpy primitives used by the source *)

Module Np.

(** [np.radians(x)]: degrees to radians. *)
Definition radians (x : R) : R := x * (PI / 180).

(** [np.cos]. *)
Definition cos (x : R) : R := Rtrigo_def.cos x.

(** [np.sqrt]: a real on a non-negative radicand, NaN ([None]) on a
    negative one. *)
Definition sqrt (x : R) : option R :=
  if Rle_dec 0 x then Some (R_sqrt.sqrt x) else None.

End Np.

(** ** The source function *)

(** [g = 9.81] (line 15). *)
Definition g : R := 9.81.

(** [energy_available = g * height - friction * g * np.cos(theta) * length]
    with [theta = np.radians(incline)] (lines 16 and 38). *)
Definition energy_available (height length incline friction : R) : R :=
  let theta := Np.radians incline in
  g * height - friction * g * Np.cos theta * length.

(** [final_disk_speed] (lines 3-45).  [mass] and [radius] are parameters
    of the signature, as in the source. *)
Definition final_disk_speed
    (height length incline mass friction radius : R) : option R :=
  let energy_available := energy_available height length incline friction in
  if Rle_dec energy_available 0 then Some 0
  else
    let v_squared := (4 / 3) * energy_available in
    let velocity := Np.sqrt v_squared in
    velocity.

(** ** The source function on binary64 *)

Module B64.

(** [np.radians(x)]: numpy multiplies by the binary64 quotient
    [pi / 180]. *)
Definition radians (x : float) : float :=
  (x * (3.141592653589793 / 180))%float.

(** [np.sqrt]: the IEEE 754 square root, correctly rounded; NaN on a
    negative radicand. *)
Definition sqrt (x : float) : float := PrimFloat.sqrt x.

(** [g = 9.81] (line 15): the binary64 number nearest to 9.81. *)
Definition g : float := 9.81%float.

Section Cosine.

(** [np.cos]: the cosine of the platform's math library. *)
Variable cos : float -> float.

(** Lines 16 and 38, with Python's left-to-right order of the products. *)
Definition energy_available (height length incline friction : float) : float :=
  let theta := radians incline in
  (g * height - friction * g * cos theta * length)%float.

(** [final_disk_speed] (lines 3-45). *)
Definition final_disk_speed
    (height length incline mass friction radius : float) : float :=
  let energy_available := energy_available height length incline friction in
  if (energy_available <=? 0)%float then 0%float
  else
    let v_squared := ((4 / 3) * energy_available)%float in
    let velocity := sqrt v_squared in
    velocity.

End Cosine.

(** The real number a finite binary64 number stands for (0 for the
    zeros, and for infinities and NaN, which stand for no real). *)
Definition to_R (x : float) : R :=
  match Prim2SF x with
  | S754_finite s m e =>
      let n := IZR (if s then Zneg m else Zpos m) in
      match e with
      | Z0 => n
      | Zpos p => n * IZR (Z.pow_pos 2 p)
      | Zneg p => n / IZR (Z.pow_pos 2 p)
      end
  | _ => 0
  end.

End B64.

(** ** Unfolding lemmas *)

Lemma energy_available_eq (height length incline friction : R) :
  energy_available height length incline friction
  = 9.81 * height - friction * 9.81 * cos (incline * PI / 180) * length.
Proof.
  unfold energy_available, Np.radians, Np.cos, g.
  replace (incline * (PI / 180)) with (incline * PI / 180) by field.
  reflexivity.
Qed.

Lemma np_sqrt_nonneg (x : R) : 0 <= x -> Np.sqrt x = Some (sqrt x).
Proof.
  intros Hx. unfold Np.sqrt. destruct (Rle_dec 0 x); [reflexivity | contradiction].
Qed.

Lemma np_sqrt_neg (x : R) : x < 0 -> Np.sqrt x = None.
Proof.
  intros Hx. unfold Np.sqrt. destruct (Rle_dec 0 x); [lra | reflexivity].
Qed.

(** The two branches of the source. *)

Lemma final_disk_speed_clamp (h l i m f r : R) :
  energy_available h l i f <= 0 -> final_disk_speed h l i m f r = Some 0.
Proof.
  intros He. unfold final_disk_speed.
  destruct (Rle_dec (energy_available h l i f) 0); [reflexivity | contradiction].
Qed.

Lemma final_disk_speed_pos (h l i m f r : R) :
  0 < energy_available h l i f ->
  final_disk_speed h l i m f r = Some (sqrt (4 / 3 * energy_available h l i f)).
Proof.
  intros He. unfold final_disk_speed.
  destruct (Rle_dec (energy_available h l i f) 0); [lra |].
  apply np_sqrt_nonneg. lra.
Qed.

(** ** Numeric helpers *)

(** Closes a bound on an absolute value from bounds on its argument. *)
Ltac rabs_bound := unfold Rabs; destruct (Rcase_abs _); lra.

(** Enclosing a square root between two rationals by squaring. *)
Lemma sqrt_between (a b x : R) :
  0 <= a -> 0 <= b -> a * a < x -> x < b * b -> a < sqrt x < b.
Proof.
  intros Ha Hb Hax Hxb.
  assert (Hx : 0 <= x) by nra.
  split.
  - rewrite <- (sqrt_square a Ha). apply sqrt_lt_1; nra.
  - rewrite <- (sqrt_square b Hb). apply sqrt_lt_1; nra.
Qed.

(** [sqrt] is monotone on positive radicands, in the scaled form
    [(4/3) * e] the source hands to it. *)
Lemma sqrt_scaled_lt (x y : R) :
  0 < x -> x < y -> sqrt (4 / 3 * x) < sqrt (4 / 3 * y).
Proof. intros Hx Hxy. apply sqrt_lt_1; lra. Qed.

Lemma sqrt_scaled_le (x y : R) :
  0 < x -> x <= y -> sqrt (4 / 3 * x) <= sqrt (4 / 3 * y).
Proof. intros Hx Hxy. apply sqrt_le_1; lra. Qed.

(** 45 degrees: [cos (PI / 4) = sqrt 2 / 2], enclosed to six digits. *)
Lemma sqrt2_bounds : 1.41421 < sqrt 2 < 1.41422.
Proof. apply sqrt_between; lra. Qed.

Lemma cos_45_bounds : 0.707105 < Np.cos (Np.radians 45) < 0.70711.
Proof.
  unfold Np.cos, Np.radians.
  replace (45 * (PI / 180)) with (PI / 4) by field.
  rewrite cos_PI4.
  assert (Hs := sqrt2_bounds).
  assert (Hss : sqrt 2 * sqrt 2 = 2) by (apply sqrt_sqrt; lra).
  replace (1 / sqrt 2) with (sqrt 2 / 2) by (field_simplify_eq; lra).
  lra.
Qed.

(** ** Binary64 helpers *)

Lemma to_R_finite (x : float) (s : bool) (m : positive) (e : Z) :
  Prim2SF x = S754_finite s m e ->
  B64.to_R x
  = match e with
    | Z0 => IZR (if s then Zneg m else Zpos m)
    | Zpos p => IZR (if s then Zneg m else Zpos m) * IZR (Z.pow_pos 2 p)
    | Zneg p => IZR (if s then Zneg m else Zpos m) / IZR (Z.pow_pos 2 p)
    end.
Proof. intros H. unfold B64.to_R. now rewrite H. Qed.

(** Replaces [B64.to_R] of a binary64 literal by the rational it is. *)
Ltac to_R_literal x :=
  let sf := eval vm_compute in (Prim2SF x) in
  lazymatch sf with
  | S754_finite ?s ?m ?e =>
      let v := eval vm_compute in
        (match e with Zpos p | Zneg p => Z.pow_pos 2 p | Z0 => 1%Z end) in
      rewrite (to_R_finite x s m e) by (vm_compute; reflexivity);
      cbv iota;
      try change (Z.pow_pos 2 _) with v
  | _ => change (B64.to_R x) with 0
  end.

Ltac to_R_literals :=
  repeat match goal with
         | |- context [B64.to_R ?x] => to_R_literal x
         end.

(** A strictly positive binary64 number fails the guard of line 41. *)
Lemma leb_false_of_ltb (e : float) :
  (0 <? e)%float = true -> (e <=? 0)%float = false.
Proof.
  rewrite ltb_spec, leb_spec.
  change (Prim2SF 0) with (S754_zero false).
  destruct (Prim2SF e) as [s | s | | s m ex]; try destruct s;
    unfold SFltb, SFleb; simpl; congruence.
Qed.

(** An incline of 0 degrees is an angle of 0 radians, and there the
    cosine is 1: line 38 for a flat slope. *)
Lemma b64_radians_0 : B64.radians 0 = 0%float.
Proof. reflexivity. Qed.

Lemma b64_energy_available_flat
    (cos64 : float -> float) (height length friction : float) :
  cos64 0%float = 1%float ->
  B64.energy_available cos64 height length 0 friction
  = (B64.g * height - friction * B64.g * 1 * length)%float.
Proof.
  intros Hc. unfold B64.energy_available. cbv zeta.
  rewrite b64_radians_0, Hc. reflexivity.
Qed.

Lemma b64_final_disk_speed_flat
    (cos64 : float -> float) (height length mass friction radius : float) :
  cos64 0%float = 1%float ->
  B64.final_disk_speed cos64 height length 0 mass friction radius
  = let e := (B64.g * height - friction * B64.g * 1 * length)%float in
    if (e <=? 0)%float then 0%float else B64.sqrt ((4 / 3) * e)%float.
Proof.
  intros Hc. unfold B64.final_disk_speed. cbv zeta.
  now rewrite (b64_energy_available_flat cos64 _ _ _ Hc).
Qed.

(** NaN is absorbing for the operations of line 38 and fails every
    comparison. *)
Lemma b64_mul_nan_r (x : float) : (x * nan)%float = nan.
Proof.
  apply Prim2SF_inj. rewrite mul_spec.
  change (Prim2SF nan) with S754_nan.
  destruct (Prim2SF x); reflexivity.
Qed.

Lemma b64_sub_nan_l (x : float) : (nan - x)%float = nan.
Proof.
  apply Prim2SF_inj. rewrite sub_spec.
  change (Prim2SF nan) with S754_nan. reflexivity.
Qed.

Lemma b64_mul_nan_l (x : float) : (nan * x)%float = nan.
Proof.
  apply Prim2SF_inj. rewrite mul_spec.
  change (Prim2SF nan) with S754_nan. reflexivity.
Qed.

Lemma b64_sub_nan_r (x : float) : (x - nan)%float = nan.
Proof.
  apply Prim2SF_inj. rewrite sub_spec.
  change (Prim2SF nan) with S754_nan.
  destruct (Prim2SF x); reflexivity.
Qed.

Lemma b64_leb_nan_l (x : float) : (nan <=? x)%float = false.
Proof. rewrite leb_spec. change (Prim2SF nan) with S754_nan. reflexivity. Qed.

(** Scenario B of the demo driver has energy available. *)
Lemma scenario_B_energy_positive :
  0 < 9.81 * 8 - 0.3 * 9.81 * cos (45 * PI / 180) * 12.
Proof.
  assert (H := COS_bound (45 * PI / 180)). lra.
Qed.

(** ** Properties of [final_disk_speed] *)

(** C1 as stated fails on the code.  At [height = 1.6562500000000002]
    (the binary64 number next above 1.65625), [length = 13.25],
    [incline = 0], [friction = 0.125] the energy
    [9.81*height - friction*9.81*cos(incline*pi/180)*length] is strictly
    positive over the reals, so the stated result [sqrt ((4/3) * e)] is
    strictly positive; but line 38 rounds the energy to 0, the guard of
    line 41 holds and the code returns [0.0]. *)
Lemma final_disk_speed_positive_energy_counterexample :
  0 < 9.81 * B64.to_R 1.6562500000000002
      - B64.to_R 0.125 * 9.81 * cos (B64.to_R 0 * PI / 180) * B64.to_R 13.25
  /\ 0 < sqrt (4 / 3 *
          (9.81 * B64.to_R 1.6562500000000002
           - B64.to_R 0.125 * 9.81 * cos (B64.to_R 0 * PI / 180)
             * B64.to_R 13.25))
  /\ forall (cos64 : float -> float) (mass radius : float),
       cos64 0%float = 1%float ->
       B64.final_disk_speed cos64 1.6562500000000002 13.25 0 mass 0.125 radius
       = 0%float.
Proof.
  assert (He : 0 < 9.81 * B64.to_R 1.6562500000000002
                   - B64.to_R 0.125 * 9.81 * cos (B64.to_R 0 * PI / 180)
                     * B64.to_R 13.25).
  { to_R_literals.
    replace (0 * PI / 180) with 0 by field. rewrite cos_0. lra. }
  split; [exact He |].
  split; [apply sqrt_lt_R0; lra |].
  intros cos64 mass radius Hc.
  rewrite (b64_final_disk_speed_flat cos64 _ _ _ _ _ Hc).
  vm_compute. reflexivity.
Qed.

(** C1 (amended).  For every six binary64 inputs such that the energy [e]
    computed in binary64 on line 38 is strictly positive,
    [final_disk_speed] returns the binary64 square root of the binary64
    product [(4/3) * e]. *)
Theorem final_disk_speed_positive_energy
    (cos64 : float -> float)
    (height length incline mass friction radius : float) :
  (0 <? B64.energy_available cos64 height length incline friction)%float = true ->
  B64.final_disk_speed cos64 height length incline mass friction radius
  = B64.sqrt ((4 / 3) * B64.energy_available cos64 height length incline friction)%float.
Proof.
  intros He. unfold B64.final_disk_speed. cbv zeta.
  now rewrite (leb_false_of_ltb _ He).
Qed.

(** Scenario B laid flat ([incline = 0]): the energy is positive and the
    speed is 7.586 m/s, whatever the cosine implementation. *)
Lemma final_disk_speed_positive_energy_witness :
  B64.radians 0 = 0%float
  /\ forall (cos64 : float -> float) (mass radius : float),
       cos64 0%float = 1%float ->
       B64.final_disk_speed cos64 8 12 0 mass 0.3 radius
       = 7.5863034476614502%float.
Proof.
  split; [reflexivity |].
  intros cos64 mass radius Hc.
  rewrite (final_disk_speed_positive_energy cos64 8 12 0 mass 0.3 radius).
  - rewrite (b64_energy_available_flat cos64 _ _ _ Hc). vm_compute. reflexivity.
  - rewrite (b64_energy_available_flat cos64 _ _ _ Hc). vm_compute. reflexivity.
Defined.

(** C2 as stated fails on the code.  At [height = 2.25], [length = 3],
    [incline = 0], [friction = 0.75], all exact in binary64,
    [friction * cos(theta) * length >= height] holds over the reals and in
    binary64, and [e <= 0] holds over the reals; but the two products of
    line 38 round differently, the computed energy is 3.55e-15, the guard
    of line 41 fails and the code returns 6.88e-08, not [0.0]. *)
Lemma final_disk_speed_zero_clamp_counterexample :
  B64.to_R 0.75 * cos (B64.to_R 0 * PI / 180) * B64.to_R 3 >= B64.to_R 2.25
  /\ 9.81 * B64.to_R 2.25
     - B64.to_R 0.75 * 9.81 * cos (B64.to_R 0 * PI / 180) * B64.to_R 3 <= 0
  /\ forall (cos64 : float -> float) (mass radius : float),
       cos64 0%float = 1%float ->
       (2.25 <=? 0.75 * cos64 (B64.radians 0) * 3)%float = true
       /\ B64.energy_available cos64 2.25 3 0 0.75 = 3.5527136788005009e-15%float
       /\ B64.final_disk_speed cos64 2.25 3 0 mass 0.75 radius
          = 6.8825515412047593e-08%float.
Proof.
  split; [| split].
  - to_R_literals.
    replace (0 * PI / 180) with 0 by field. rewrite cos_0. lra.
  - to_R_literals.
    replace (0 * PI / 180) with 0 by field. rewrite cos_0. lra.
  - intros cos64 mass radius Hc. split; [| split].
    + rewrite b64_radians_0, Hc. vm_compute. reflexivity.
    + rewrite (b64_energy_available_flat cos64 _ _ _ Hc). vm_compute. reflexivity.
    + rewrite (b64_final_disk_speed_flat cos64 _ _ _ _ _ Hc).
      vm_compute. reflexivity.
Qed.

(** C2 (amended).  Zero clamp: for every six binary64 inputs such that
    the energy [e] computed in binary64 on line 38 satisfies [e <= 0],
    [final_disk_speed] returns exactly [0.0]. *)
Theorem final_disk_speed_zero_clamp
    (cos64 : float -> float)
    (height length incline mass friction radius : float) :
  (B64.energy_available cos64 height length incline friction <=? 0)%float = true ->
  B64.final_disk_speed cos64 height length incline mass friction radius = 0%float.
Proof.
  intros He. unfold B64.final_disk_speed. cbv zeta.
  now rewrite He.
Qed.

(** Scenario C laid flat ([incline = 0]): friction consumes all the
    energy, whatever the cosine implementation. *)
Lemma final_disk_speed_zero_clamp_witness :
  B64.radians 0 = 0%float
  /\ forall (cos64 : float -> float) (mass radius : float),
       cos64 0%float = 1%float ->
       B64.final_disk_speed cos64 2 15 0 mass 0.5 radius = 0%float.
Proof.
  split; [reflexivity |].
  intros cos64 mass radius Hc.
  apply (final_disk_speed_zero_clamp cos64 2 15 0 mass 0.5 radius).
  rewrite (b64_energy_available_flat cos64 _ _ _ Hc). vm_compute. reflexivity.
Defined.

(** C5.  Mass and radius invariance: two runs that differ only in their
    mass and radius arguments return the same result (for all masses and
    radii, the positive ones included). *)
Theorem final_disk_speed_mass_radius_invariant
    (height length incline friction mass1 radius1 mass2 radius2 : R) :
  final_disk_speed height length incline mass1 friction radius1
  = final_disk_speed height length incline mass2 friction radius2.
Proof. reflexivity. Qed.

(** C6.  Every call returns a defined, non-negative real: either the
    clamp branch is taken, or the radicand handed to the square root is
    strictly positive, so the square root is never taken of a negative
    number and no input makes the function fail. *)
Theorem final_disk_speed_defined_nonneg
    (height length incline mass friction radius : R) :
  (exists v, final_disk_speed height length incline mass friction radius = Some v
             /\ 0 <= v)
  /\ (energy_available height length incline friction <= 0
      \/ 0 < 4 / 3 * energy_available height length incline friction).
Proof.
  destruct (Rle_dec (energy_available height length incline friction) 0) as [He | He].
  - split; [| left; exact He].
    exists 0. split; [now apply final_disk_speed_clamp | lra].
  - apply Rnot_le_lt in He. split; [| right; lra].
    exists (sqrt (4 / 3 * energy_available height length incline friction)).
    split; [now apply final_disk_speed_pos | apply sqrt_pos].
Qed.

(** The incline is read only through its cosine: two angles with the
    same cosine give the same result. *)
Lemma final_disk_speed_incline_through_cos
    (height length incline incline' mass friction radius : R) :
  Np.cos (Np.radians incline') = Np.cos (Np.radians incline) ->
  final_disk_speed height length incline' mass friction radius
  = final_disk_speed height length incline mass friction radius.
Proof.
  intros Hc. unfold final_disk_speed, energy_available.
  now rewrite Hc.
Qed.

(** C10.  The incline enters only through [cos (incline * pi / 180)]:
    reflecting the angle, [incline] to [- incline], leaves the result
    unchanged, for every input (no range of angles is enforced). *)
Theorem final_disk_speed_incline_even
    (height length incline mass friction radius : R) :
  final_disk_speed height length (- incline) mass friction radius
  = final_disk_speed height length incline mass friction radius.
Proof.
  apply final_disk_speed_incline_through_cos.
  unfold Np.radians, Np.cos.
  replace (- incline * (PI / 180)) with (- (incline * (PI / 180))) by ring.
  apply cos_neg.
Qed.

(** ** The frictionless case and Scenario A *)

Lemma energy_available_frictionless (height length incline : R) :
  energy_available height length incline 0 = 9.81 * height.
Proof. unfold energy_available, g. ring. Qed.

Lemma final_disk_speed_frictionless_value
    (height length incline mass radius : R) :
  0 <= height ->
  final_disk_speed height length incline mass 0 radius
  = Some (sqrt (4 / 3 * (9.81 * height))).
Proof.
  intros [Hpos | Hzero].
  - rewrite final_disk_speed_pos; rewrite energy_available_frictionless;
      [reflexivity | lra].
  - subst height. rewrite final_disk_speed_clamp
      by (rewrite energy_available_frictionless; lra).
    replace (4 / 3 * (9.81 * 0)) with 0 by ring.
    now rewrite sqrt_0.
Qed.

(** The speed reached from 10 m without friction, [sqrt 130.8], to four
    decimals. *)
Lemma sqrt_130_8_bounds : 11.4367 < sqrt (4 / 3 * (9.81 * 10)) < 11.4369.
Proof. apply sqrt_between; lra. Qed.

(** C3 (amended).  With [friction = 0] the result does not depend on
    [length] or [incline]; for [height >= 0] it is
    [sqrt ((4/3) * g * height)] with [g = 9.81]; for [height = 10] it is
    11.4368 m/s to within 1e-4. *)
Theorem final_disk_speed_frictionless
    (height length incline mass radius : R) :
  (forall length' incline' : R,
      final_disk_speed height length' incline' mass 0 radius
      = final_disk_speed height length incline mass 0 radius)
  /\ (0 <= height ->
      final_disk_speed height length incline mass 0 radius
      = Some (sqrt (4 / 3 * (9.81 * height))))
  /\ (exists v, final_disk_speed 10 length incline mass 0 radius = Some v
                /\ Rabs (v - 11.4368) < 1 / 10000).
Proof.
  split; [| split].
  - intros length' incline'. unfold final_disk_speed.
    now rewrite !energy_available_frictionless.
  - apply final_disk_speed_frictionless_value.
  - exists (sqrt (4 / 3 * (9.81 * 10))). split.
    + apply final_disk_speed_frictionless_value. lra.
    + assert (H := sqrt_130_8_bounds). rabs_bound.
Qed.

Lemma final_disk_speed_frictionless_witness :
  final_disk_speed 10 20 30 5 0 0.5 = Some (sqrt (4 / 3 * (9.81 * 10))).
Proof.
  apply (proj1 (proj2 (final_disk_speed_frictionless 10 20 30 5 0.5))).
  lra.
Defined.

(** C3 as stated fails twice.  For a negative height the clamp returns
    [0.0] while the square root of the negative radicand
    [(4/3) * g * height] is not a real number; and for [height = 10] the
    result is not 11.4316 to the 1e-4 tolerance. *)
Lemma final_disk_speed_frictionless_counterexample :
  final_disk_speed (-1) 20 30 5 0 0.5 <> Np.sqrt (4 / 3 * (9.81 * -1))
  /\ ~ (exists v, final_disk_speed 10 20 30 5 0 0.5 = Some v
                  /\ Rabs (v - 11.4316) <= 1 / 10000).
Proof.
  split.
  - rewrite final_disk_speed_clamp
      by (rewrite energy_available_frictionless; lra).
    rewrite np_sqrt_neg by lra. discriminate.
  - intros [v [Hv Habs]].
    rewrite final_disk_speed_frictionless_value in Hv by lra.
    injection Hv as <-.
    assert (H := sqrt_130_8_bounds).
    revert Habs. rabs_bound.
Qed.

(** C4 (amended).  Scenario A, [height=10, length=20, incline=30, mass=5,
    friction=0, radius=0.5], returns a value within 0.01 of 11.44 m/s. *)
Theorem scenario_A_speed :
  exists v, final_disk_speed 10 20 30 5 0 0.5 = Some v
            /\ Rabs (v - 11.44) <= 0.01.
Proof.
  exists (sqrt (4 / 3 * (9.81 * 10))). split.
  - apply final_disk_speed_frictionless_value. lra.
  - assert (H := sqrt_130_8_bounds). rabs_bound.
Qed.

(** C4 as stated fails: the value returned for Scenario A is not within
    0.01 of 11.48 m/s. *)
Lemma scenario_A_speed_counterexample :
  ~ (exists v, final_disk_speed 10 20 30 5 0 0.5 = Some v
               /\ Rabs (v - 11.48) <= 0.01).
Proof.
  intros [v [Hv Habs]].
  rewrite final_disk_speed_frictionless_value in Hv by lra.
  injection Hv as <-.
  assert (H := sqrt_130_8_bounds).
  revert Habs. rabs_bound.
Qed.

(** ** Monotonicity *)

(** How the available energy moves with friction and with height. *)
Lemma energy_available_friction_diff (height length incline f1 f2 : R) :
  energy_available height length incline f1
  - energy_available height length incline f2
  = (f2 - f1) * 9.81 * (Np.cos (Np.radians incline) * length).
Proof. unfold energy_available, g. ring. Qed.

Lemma energy_available_height_diff (h1 h2 length incline friction : R) :
  energy_available h2 length incline friction
  - energy_available h1 length incline friction
  = 9.81 * (h2 - h1).
Proof. unfold energy_available, g. ring. Qed.

(** On the documented range of angles the cosine is not negative. *)
Lemma cos_incline_nonneg (incline : R) :
  0 <= incline <= 90 -> 0 <= cos (incline * PI / 180).
Proof.
  intros [Hlo Hhi]. assert (Hpi := PI_RGT_0).
  apply cos_ge_0; nra.
Qed.

(** C7 (amended).  On the documented ranges [length >= 0] and
    [0 <= incline <= 90], the result is non-increasing in friction: for
    [f1 <= f2] the result at [f2] is at most the result at [f1], and a
    result clamped to zero at [f1] is zero at [f2]. *)
Theorem final_disk_speed_friction_monotone
    (height length incline mass radius f1 f2 : R) :
  0 <= length ->
  0 <= incline <= 90 ->
  f1 <= f2 ->
  exists v1 v2,
    final_disk_speed height length incline mass f1 radius = Some v1
    /\ final_disk_speed height length incline mass f2 radius = Some v2
    /\ v2 <= v1
    /\ (v1 = 0 -> v2 = 0).
Proof.
  intros Hl Hi Hf.
  pose proof (cos_incline_nonneg incline Hi) as Hc.
  replace (incline * PI / 180) with (Np.radians incline) in Hc
    by (unfold Np.radians; field).
  fold (Np.cos (Np.radians incline)) in Hc.
  pose proof (energy_available_friction_diff height length incline f1 f2) as Hd.
  assert (Hcl : 0 <= Np.cos (Np.radians incline) * length)
    by (apply Rmult_le_pos; assumption).
  assert (He : energy_available height length incline f2
               <= energy_available height length incline f1) by nra.
  destruct (Rle_dec (energy_available height length incline f1) 0) as [H1 | H1].
  - exists 0, 0.
    rewrite !final_disk_speed_clamp by lra. repeat split; lra.
  - apply Rnot_le_lt in H1.
    destruct (Rle_dec (energy_available height length incline f2) 0) as [H2 | H2].
    + exists (sqrt (4 / 3 * energy_available height length incline f1)), 0.
      rewrite final_disk_speed_pos by assumption.
      rewrite final_disk_speed_clamp by assumption.
      repeat split. apply sqrt_pos.
    + apply Rnot_le_lt in H2.
      exists (sqrt (4 / 3 * energy_available height length incline f1)),
             (sqrt (4 / 3 * energy_available height length incline f2)).
      rewrite !final_disk_speed_pos by assumption.
      repeat split.
      * now apply sqrt_scaled_le.
      * intros Hz.
        assert (0 < sqrt (4 / 3 * energy_available height length incline f1))
          by (apply sqrt_lt_R0; lra).
        lra.
Qed.

Lemma final_disk_speed_friction_monotone_witness :
  exists v1 v2,
    final_disk_speed 8 12 45 3 0.3 0.4 = Some v1
    /\ final_disk_speed 8 12 45 3 0.5 0.4 = Some v2
    /\ v2 <= v1
    /\ (v1 = 0 -> v2 = 0).
Proof.
  apply (final_disk_speed_friction_monotone 8 12 45 3 0.4 0.3 0.5); lra.
Defined.

(** C7 as stated fails: for an obtuse incline the cosine is negative, the
    friction term adds energy, and the result grows with friction.  At
    [height=1, length=1, incline=180] the result at friction 0 is strictly
    below the result at friction 1. *)
Lemma final_disk_speed_friction_monotone_counterexample :
  0 <= 1
  /\ exists v1 v2,
       final_disk_speed 1 1 180 1 0 1 = Some v1
       /\ final_disk_speed 1 1 180 1 1 1 = Some v2
       /\ v1 < v2.
Proof.
  split; [lra |].
  assert (Hc : Np.cos (Np.radians 180) = -1).
  { unfold Np.cos, Np.radians.
    replace (180 * (PI / 180)) with PI by field. apply cos_PI. }
  assert (E0 : energy_available 1 1 180 0 = 9.81)
    by (rewrite energy_available_frictionless; lra).
  assert (E1 : energy_available 1 1 180 1 = 19.62)
    by (unfold energy_available, g; rewrite Hc; lra).
  exists (sqrt (4 / 3 * 9.81)), (sqrt (4 / 3 * 19.62)).
  rewrite <- E0 at 1. rewrite <- E1 at 1.
  rewrite !final_disk_speed_pos by lra.
  rewrite E0, E1.
  repeat split. apply sqrt_scaled_lt; lra.
Qed.

(** C8 as stated fails on the code.  At [length = 20], [incline = 0],
    [friction = 0] the heights 10 and 10.000000000000002 (the next
    binary64 number) both have energy available and the second is greater,
    yet the code returns the same speed 11.436782764396638 for both: the
    increase is not strict. *)
Lemma final_disk_speed_height_strict_counterexample :
  B64.to_R 10 < B64.to_R 10.000000000000002
  /\ 0 < 9.81 * B64.to_R 10
         - B64.to_R 0 * 9.81 * cos (B64.to_R 0 * PI / 180) * B64.to_R 20
  /\ 0 < 9.81 * B64.to_R 10.000000000000002
         - B64.to_R 0 * 9.81 * cos (B64.to_R 0 * PI / 180) * B64.to_R 20
  /\ forall (cos64 : float -> float) (mass radius : float),
       cos64 0%float = 1%float ->
       B64.final_disk_speed cos64 10 20 0 mass 0 radius
       = 11.436782764396638%float
       /\ B64.final_disk_speed cos64 10.000000000000002 20 0 mass 0 radius
          = 11.436782764396638%float.
Proof.
  split; [| split; [| split]].
  - to_R_literals. lra.
  - to_R_literals. lra.
  - to_R_literals. lra.
  - intros cos64 mass radius Hc.
    rewrite !(b64_final_disk_speed_flat cos64 _ _ _ _ _ Hc).
    split; vm_compute; reflexivity.
Qed.

(** C8 (amended).  With the other arguments fixed and energy available at
    both heights, the result is non-decreasing in height: [h1 < h2] gives
    a result at [h1] that is at most the result at [h2]. *)
Theorem final_disk_speed_height_nondecreasing
    (h1 h2 length incline mass friction radius : R) :
  0 < 9.81 * h1 - friction * 9.81 * cos (incline * PI / 180) * length ->
  0 < 9.81 * h2 - friction * 9.81 * cos (incline * PI / 180) * length ->
  h1 < h2 ->
  exists v1 v2,
    final_disk_speed h1 length incline mass friction radius = Some v1
    /\ final_disk_speed h2 length incline mass friction radius = Some v2
    /\ v1 <= v2.
Proof.
  rewrite <- !energy_available_eq. intros H1 H2 Hh.
  pose proof (energy_available_height_diff h1 h2 length incline friction) as Hd.
  exists (sqrt (4 / 3 * energy_available h1 length incline friction)),
         (sqrt (4 / 3 * energy_available h2 length incline friction)).
  rewrite !final_disk_speed_pos by assumption.
  repeat split. apply sqrt_scaled_le; lra.
Qed.

Lemma final_disk_speed_height_nondecreasing_witness :
  exists v1 v2,
    final_disk_speed 8 12 45 3 0.3 0.4 = Some v1
    /\ final_disk_speed 9 12 45 3 0.3 0.4 = Some v2
    /\ v1 <= v2.
Proof.
  apply (final_disk_speed_height_nondecreasing 8 9 12 45 3 0.3 0.4).
  - exact scenario_B_energy_positive.
  - assert (H := scenario_B_energy_positive). lra.
  - lra.
Defined.

(** ** Scenario B *)

(** C9.  For [height=8, length=12, incline=45, mass=3, friction=0.3,
    radius=0.4] the specific available energy is
    [9.81*8 - 0.3*9.81*cos(45 degrees)*12], which is within 0.01 of 53.50,
    and the returned speed is within 0.01 of 8.44 m/s. *)
Theorem scenario_B_speed :
  energy_available 8 12 45 0.3
  = 9.81 * 8 - 0.3 * 9.81 * cos (45 * PI / 180) * 12
  /\ Rabs (energy_available 8 12 45 0.3 - 53.50) <= 0.01
  /\ exists v, final_disk_speed 8 12 45 3 0.3 0.4 = Some v
               /\ Rabs (v - 8.44) <= 0.01.
Proof.
  assert (Hc := cos_45_bounds).
  assert (He : 53.5077 < energy_available 8 12 45 0.3 < 53.5079)
    by (unfold energy_available, g; lra).
  split; [apply energy_available_eq |].
  split; [rabs_bound |].
  exists (sqrt (4 / 3 * energy_available 8 12 45 0.3)).
  split; [apply final_disk_speed_pos; lra |].
  assert (Hv : 8.4465 < sqrt (4 / 3 * energy_available 8 12 45 0.3) < 8.4466)
    by (apply sqrt_between; lra).
  rabs_bound.
Qed.

(** ** Further properties of [final_disk_speed] *)

(** Every call yields a value, and that value is not negative. *)
Lemma final_disk_speed_defined_nonneg_aux (h l i m f r : R) :
  exists v, final_disk_speed h l i m f r = Some v /\ 0 <= v.
Proof.
  destruct (Rle_dec (energy_available h l i f) 0) as [He | He].
  - exists 0. split; [now apply final_disk_speed_clamp | lra].
  - apply Rnot_le_lt in He.
    exists (sqrt (4 / 3 * energy_available h l i f)).
    split; [now apply final_disk_speed_pos | apply sqrt_pos].
Qed.

(** The result is a function of the available energy alone, and grows
    with it: this is the one comparison behind the monotonicity results
    below. *)
Lemma final_disk_speed_energy_mono
    (h l i m f r h' l' i' m' f' r' : R) :
  energy_available h l i f <= energy_available h' l' i' f' ->
  exists v v',
    final_disk_speed h l i m f r = Some v
    /\ final_disk_speed h' l' i' m' f' r' = Some v'
    /\ v <= v'.
Proof.
  intros He.
  destruct (Rle_dec (energy_available h l i f) 0) as [H1 | H1].
  - destruct (final_disk_speed_defined_nonneg_aux h' l' i' m' f' r') as [v' [Hv' Hpos]].
    exists 0, v'. rewrite final_disk_speed_clamp by assumption. auto.
  - apply Rnot_le_lt in H1.
    exists (sqrt (4 / 3 * energy_available h l i f)),
           (sqrt (4 / 3 * energy_available h' l' i' f')).
    rewrite !final_disk_speed_pos by lra.
    repeat split. now apply sqrt_scaled_le.
Qed.

(** X3.  Over all heights, clamped ones included, the result never
    decreases when the height grows. *)
Theorem final_disk_speed_height_mono
    (h1 h2 length incline mass friction radius : R) :
  h1 <= h2 ->
  exists v1 v2,
    final_disk_speed h1 length incline mass friction radius = Some v1
    /\ final_disk_speed h2 length incline mass friction radius = Some v2
    /\ v1 <= v2.
Proof.
  intros Hh. apply final_disk_speed_energy_mono.
  pose proof (energy_available_height_diff h1 h2 length incline friction).
  lra.
Qed.

Lemma final_disk_speed_height_mono_witness :
  exists v1 v2,
    final_disk_speed (-1) 15 20 1 0.5 0.2 = Some v1
    /\ final_disk_speed 2 15 20 1 0.5 0.2 = Some v2
    /\ v1 <= v2.
Proof.
  apply (final_disk_speed_height_mono (-1) 2 15 20 1 0.5 0.2). lra.
Defined.

(** X4.  On the documented ranges [friction >= 0], [length >= 0] and
    [0 <= incline <= 90], friction never lets the disk beat the
    frictionless speed for the same height. *)
Theorem final_disk_speed_le_frictionless
    (height length incline mass friction radius : R) :
  0 <= friction ->
  0 <= length ->
  0 <= incline <= 90 ->
  exists v v0,
    final_disk_speed height length incline mass friction radius = Some v
    /\ final_disk_speed height length incline mass 0 radius = Some v0
    /\ v <= v0.
Proof.
  intros Hf Hl Hi. apply final_disk_speed_energy_mono.
  pose proof (cos_incline_nonneg incline Hi) as Hc.
  rewrite energy_available_frictionless, energy_available_eq.
  assert (0 <= friction * cos (incline * PI / 180) * length)
    by (apply Rmult_le_pos; [apply Rmult_le_pos |]; assumption).
  nra.
Qed.

Lemma final_disk_speed_le_frictionless_witness :
  exists v v0,
    final_disk_speed 8 12 45 3 0.3 0.4 = Some v
    /\ final_disk_speed 8 12 45 3 0 0.4 = Some v0
    /\ v <= v0.
Proof.
  apply (final_disk_speed_le_frictionless 8 12 45 3 0.3 0.4); lra.
Defined.

(** X5.  On the documented ranges [friction >= 0] and
    [0 <= incline <= 90], a longer slope never gives a greater result. *)
Theorem final_disk_speed_length_antitone
    (height l1 l2 incline mass friction radius : R) :
  0 <= friction ->
  0 <= incline <= 90 ->
  l1 <= l2 ->
  exists v1 v2,
    final_disk_speed height l1 incline mass friction radius = Some v1
    /\ final_disk_speed height l2 incline mass friction radius = Some v2
    /\ v2 <= v1.
Proof.
  intros Hf Hi Hl.
  pose proof (cos_incline_nonneg incline Hi) as Hc.
  destruct (final_disk_speed_energy_mono
              height l2 incline mass friction radius
              height l1 incline mass friction radius) as [v2 [v1 [E2 [E1 Hle]]]].
  - rewrite !energy_available_eq.
    assert (0 <= friction * cos (incline * PI / 180))
      by (apply Rmult_le_pos; assumption).
    nra.
  - exists v1, v2. auto.
Qed.

Lemma final_disk_speed_length_antitone_witness :
  exists v1 v2,
    final_disk_speed 8 12 45 3 0.3 0.4 = Some v1
    /\ final_disk_speed 8 20 45 3 0.3 0.4 = Some v2
    /\ v2 <= v1.
Proof.
  apply (final_disk_speed_length_antitone 8 12 20 45 3 0.3 0.4); lra.
Defined.

(** X7.  A slope of length zero loses nothing to friction: whatever the
    friction coefficient and the incline, the result is the frictionless
    one for that height. *)
Theorem final_disk_speed_zero_length
    (height incline mass friction radius length' incline' : R) :
  final_disk_speed height 0 incline mass friction radius
  = final_disk_speed height length' incline' mass 0 radius.
Proof.
  unfold final_disk_speed.
  rewrite energy_available_frictionless.
  replace (energy_available height 0 incline friction) with (9.81 * height)
    by (unfold energy_available, g; ring).
  reflexivity.
Qed.

(** X10.  Steeper is not slower: for inclines between 0 and 180 degrees
    and [friction * length >= 0], a greater incline never gives a smaller
    result (the normal force, hence the friction work, shrinks). *)
Theorem final_disk_speed_incline_mono
    (height length i1 i2 mass friction radius : R) :
  0 <= friction * length ->
  0 <= i1 -> i1 <= i2 -> i2 <= 180 ->
  exists v1 v2,
    final_disk_speed height length i1 mass friction radius = Some v1
    /\ final_disk_speed height length i2 mass friction radius = Some v2
    /\ v1 <= v2.
Proof.
  intros Hfl H0 H12 H180.
  apply final_disk_speed_energy_mono.
  assert (Hpi := PI_RGT_0).
  assert (Hc : Np.cos (Np.radians i2) <= Np.cos (Np.radians i1)).
  { unfold Np.cos, Np.radians. apply cos_decr_1; nra. }
  unfold energy_available, g. nra.
Qed.

Lemma final_disk_speed_incline_mono_witness :
  exists v1 v2,
    final_disk_speed 8 12 30 3 0.3 0.4 = Some v1
    /\ final_disk_speed 8 12 45 3 0.3 0.4 = Some v2
    /\ v1 <= v2.
Proof.
  apply (final_disk_speed_incline_mono 8 12 30 45 3 0.3 0.4); lra.
Defined.

(** X12.  NaN is not clamped.  When [height], [length] or [friction] is
    NaN the computed energy is NaN, the guard of line 41 is false for NaN,
    and the function returns NaN rather than [0.0], whatever the other
    arguments and the cosine. *)
Theorem final_disk_speed_nan
    (cos64 : float -> float)
    (height length incline mass friction radius : float) :
  B64.final_disk_speed cos64 nan length incline mass friction radius = nan
  /\ B64.final_disk_speed cos64 height nan incline mass friction radius = nan
  /\ B64.final_disk_speed cos64 height length incline mass nan radius = nan.
Proof.
  unfold B64.final_disk_speed, B64.energy_available. cbv zeta.
  repeat split.
  - rewrite b64_mul_nan_r, b64_sub_nan_l, b64_leb_nan_l, b64_mul_nan_r.
    reflexivity.
  - rewrite b64_mul_nan_r, b64_sub_nan_r, b64_leb_nan_l, b64_mul_nan_r.
    reflexivity.
  - rewrite !b64_mul_nan_l, b64_sub_nan_r, b64_leb_nan_l, b64_mul_nan_r.
    reflexivity.
Qed.
